(** * file-mime-converter: the conversion driver of [main.py]

    A shallow embedding of [convert_file] and [main].  Python [str] and
    [bytes] values are byte strings (a [str] is kept as its UTF-8 encoding),
    the calls into the file system, the MIME table, the argument parser and
    the process table are fields of an environment record, and the effects
    the driver has on the outside (log records, process creation, waiting
    for the child, lines on standard output) are collected in a trace. *)

From Stdlib Require Import String Ascii List ZArith NArith Lia Bool DecimalString.
Import ListNotations.
Open Scope string_scope.

(** ** Builtins of the language used by the driver *)

Module Py.

(** [s.lstrip(c)] for a one-character set. *)
Fixpoint lstrip (c : ascii) (s : string) : string :=
  match s with
  | String a s' => if Ascii.eqb a c then lstrip c s' else s
  | EmptyString => EmptyString
  end.

(** [s.rfind(c)]: index of the last occurrence, [-1] when there is none. *)
Fixpoint rfind (c : ascii) (s : string) : Z :=
  match s with
  | EmptyString => (-1)%Z
  | String a s' =>
      let i := rfind c s' in
      if (0 <=? i)%Z then (i + 1)%Z
      else if Ascii.eqb a c then 0%Z else (-1)%Z
  end.

(** [s[i:]] for [0 <= i]. *)
Definition slice_from (i : Z) (s : string) : string :=
  substring (Z.to_nat i) (String.length s - Z.to_nat i) s.

(** [s.split(c)]. *)
Fixpoint split_from (c : ascii) (cur : string) (s : string) : list string :=
  match s with
  | EmptyString => [cur]
  | String a s' =>
      if Ascii.eqb a c then cur :: split_from c EmptyString s'
      else split_from c (cur ++ String a EmptyString) s'
  end.

Definition split (c : ascii) (s : string) : list string :=
  split_from c EmptyString s.

(** [sep.join(l)]. *)
Definition join (sep : string) (l : list string) : string :=
  String.concat sep l.

(** [sub in s]. *)
Fixpoint contains (sub s : string) : bool :=
  prefix sub s ||
  match s with
  | String _ s' => contains sub s'
  | EmptyString => false
  end.

(** [str(n)] for an integer. *)
Definition str_of_int (n : Z) : string :=
  NilEmpty.string_of_int (Z.to_int n).

(** Truth value of an optional string: [None] and [''] are false. *)
Definition truthy (o : option string) : bool :=
  match o with
  | Some s => negb (s =? "")
  | None => false
  end.

(** [f"{o}"] for an optional string. *)
Definition format (o : option string) : string :=
  match o with
  | Some s => s
  | None => "None"
  end.

(** Exception classes, all below [Exception]. *)
Inductive exc_class :=
| FileNotFoundError
| PermissionError
| OSError
| NotADirectoryError
| RuntimeError
| ValueError
| UnicodeDecodeError
| UnicodeEncodeError.

(** An exception instance: its class and [str(e)]. *)
Record exn := Exn { exn_class : exc_class; exn_str : string }.

Definition is_FileNotFoundError (e : exn) : bool :=
  match exn_class e with
  | FileNotFoundError => true
  | _ => false
  end.

(** What a library call does: it returns or it raises. *)
Inductive outcome (A : Type) :=
| Returns (a : A)
| Raises (e : exn).
Arguments Returns {A} a.
Arguments Raises {A} e.

(** Strict UTF-8 well-formedness of a byte string, as the default codec
    of [bytes.decode] checks it (no overlong forms, no surrogates, nothing
    above U+10FFFF). *)
Definition in_range (lo hi : N) (a : ascii) : bool :=
  ((lo <=? N_of_ascii a) && (N_of_ascii a <=? hi))%N.

Definition cont (a : ascii) : bool := in_range 128 191 a.

Definition second_of_3 (lead b : ascii) : bool :=
  if (N_of_ascii lead =? 224)%N then in_range 160 191 b
  else if (N_of_ascii lead =? 237)%N then in_range 128 159 b
  else cont b.

Definition second_of_4 (lead b : ascii) : bool :=
  if (N_of_ascii lead =? 240)%N then in_range 144 191 b
  else if (N_of_ascii lead =? 244)%N then in_range 128 143 b
  else cont b.

Fixpoint utf8_valid (s : string) : bool :=
  match s with
  | EmptyString => true
  | String a s1 =>
      if in_range 0 127 a then utf8_valid s1
      else if in_range 194 223 a then
        match s1 with
        | String b s2 => cont b && utf8_valid s2
        | _ => false
        end
      else if in_range 224 239 a then
        match s1 with
        | String b (String c s3) => second_of_3 a b && cont c && utf8_valid s3
        | _ => false
        end
      else if in_range 240 244 a then
        match s1 with
        | String b (String c (String d s4)) =>
            second_of_4 a b && cont c && cont d && utf8_valid s4
        | _ => false
        end
      else false
  end.

(** [b.decode()]: the text of a well-formed byte string, and
    [UnicodeDecodeError] otherwise; [describe b] is the text of that
    exception, which names the offending byte and its position. *)
Definition decode (describe : string -> string) (b : string)
  : outcome string :=
  if utf8_valid b then Returns b
  else Raises (Exn UnicodeDecodeError (describe b)).

End Py.

(** ** [pathlib]: the pure part, on POSIX paths *)

Module Pathlib.

(** The components of a path below its root: the pieces between
    separators, without the empty ones and the single dots. *)
Definition parts (p : string) : list string :=
  filter (fun x => negb (x =? "") && negb (x =? ".")) (Py.split "/" p).

(** [Path(p).name]: the final component, [''] when there is none. *)
Definition name (p : string) : string := last (parts p) "".

(** The suffix of a file name, with its leading period. *)
Definition suffix_of_name (n : string) : string :=
  let i := Py.rfind "." n in
  if ((0 <? i) && (i <? Z.of_nat (String.length n) - 1))%Z
  then Py.slice_from i n
  else "".

(** [Path(p).suffix]. *)
Definition suffix (p : string) : string := suffix_of_name (name p).

(** A suffix less its first character, the leading period. *)
Definition without_period (s : string) : string :=
  match s with
  | String _ ext => ext
  | EmptyString => EmptyString
  end.

End Pathlib.

(** ** [logging] *)

Module Logging.

(** The levels the script names: its logger is at INFO after
    [basicConfig] and at DEBUG with the debug flag, and its records are
    made at DEBUG, INFO and ERROR. *)
Inductive level := DEBUG | INFO | ERROR.

Definition levelno (l : level) : Z :=
  match l with
  | DEBUG => 10
  | INFO => 20
  | ERROR => 40
  end.

(** A record is handled when its level is not below the logger's. *)
Definition enabled (threshold l : level) : bool :=
  (levelno threshold <=? levelno l)%Z.

End Logging.

(** ** The world around the driver *)

(** A terminated child: exit status and the two captured streams. *)
Record Process := mkProcess {
  returncode : Z;
  stdout : string;
  stderr : string
}.

(** The parsed command line, as [setup_argparse] returns it. *)
Record Namespace := mkNamespace {
  input_file : string;
  output_file : string;
  target_mime : option string;
  unoconv_path : string;
  debug : bool
}.

(** What the argument parser does with the command line of the run: it
    returns the namespace, or it leaves the program through [SystemExit]
    with a status, after writing [usage] to standard output (status 0 and
    the help text for [--help]; status 2 and nothing for a command line
    it refuses, whose message goes to standard error). *)
Inductive parsed :=
| Parsed (args : Namespace)
| ParserExit (status : Z) (usage : list string).

Record Env := mkEnv {
  (** [Path(p).is_file()] *)
  is_file : string -> Py.outcome bool;
  (** [str(Path(p).resolve())] *)
  resolve : string -> Py.outcome string;
  (** [mimetypes.guess_type(p)[0]] *)
  guess_type : string -> option string;
  (** [subprocess.Popen(command, stdout=PIPE, stderr=PIPE)]: the child,
      with the status and the streams [communicate()] finds when it has
      ended, or the error of the creation. *)
  popen : list string -> Py.outcome Process;
  (** [parser.parse_args()] *)
  parse_args : parsed;
  (** what writing a line to [sys.stdout] does: [print] raises when the
      stream cannot take the line ([UnicodeEncodeError] for a name it
      cannot encode, [OSError] for a closed pipe) *)
  write_stdout : string -> Py.outcome unit;
  (** [str(e)] of the [UnicodeDecodeError] for bytes that do not decode *)
  decode_error : string -> string
}.

(** Effects visible from outside, in the order they happen. *)
Inductive Effect :=
| Log (l : Logging.level) (msg : string) (exc_info : option Py.exn)
| Popen (command : list string)
| Communicate (command : list string)
| Print (line : string)
| Usage (text : string).

(** How a piece of the program ends. *)
Inductive result (A : Type) :=
| Val (a : A)
| Raise (e : Py.exn)
| Exit (status : Z).
Arguments Val {A} a.
Arguments Raise {A} e.
Arguments Exit {A} status.

(** ** The monad of the driver: logger level as state, effects as output *)

Record Out (A : Type) := mkOut {
  res : result A;
  lvl : Logging.level;
  trace : list Effect
}.
Arguments mkOut {A} res lvl trace.
Arguments res {A} o.
Arguments lvl {A} o.
Arguments trace {A} o.

Definition M (A : Type) : Type := Logging.level -> Out A.

Definition ret {A} (a : A) : M A := fun th => mkOut (Val a) th [].

Definition bind {A B} (m : M A) (k : A -> M B) : M B :=
  fun th =>
    match m th with
    | mkOut (Val a) l t =>
        match k a l with
        | mkOut r l' t' => mkOut r l' (t ++ t')
        end
    | mkOut (Raise e) l t => mkOut (Raise e) l t
    | mkOut (Exit c) l t => mkOut (Exit c) l t
    end.

Notation "x <- m ;; k" := (bind m (fun x => k))
  (at level 61, m at next level, right associativity).
Notation "m ;;; k" := (bind m (fun _ => k))
  (at level 61, right associativity).

Definition emit (e : Effect) : M unit := fun th => mkOut (Val tt) th [e].

(** The result of a library call, inside the monad. *)
Definition call {A} (o : Py.outcome A) : M A :=
  fun th =>
    match o with
    | Py.Returns a => mkOut (Val a) th []
    | Py.Raises e => mkOut (Raise e) th []
    end.

(** [try: body  except Exception as e: handler e].  [SystemExit] is not an
    [Exception] and passes through. *)
Definition try_except {A} (body : M A) (handler : Py.exn -> M A) : M A :=
  fun th =>
    match body th with
    | mkOut (Raise e) l t =>
        match handler e l with
        | mkOut r l' t' => mkOut r l' (t ++ t')
        end
    | o => o
    end.

Definition log_at (l : Logging.level) (msg : string)
    (exc_info : option Py.exn) : M unit :=
  fun th =>
    if Logging.enabled th l then mkOut (Val tt) th [Log l msg exc_info]
    else mkOut (Val tt) th [].

Definition logging_debug (msg : string) : M unit := log_at Logging.DEBUG msg None.
Definition logging_info (msg : string) : M unit := log_at Logging.INFO msg None.
Definition logging_error (msg : string) : M unit := log_at Logging.ERROR msg None.

(** [logging.exception]: an ERROR record carrying the exception in flight. *)
Definition logging_exception (msg : string) (e : Py.exn) : M unit :=
  log_at Logging.ERROR msg (Some e).

Definition setLevel (l : Logging.level) : M unit :=
  fun _ => mkOut (Val tt) l [].

(** ** The driver *)

Section Driver.

Variable env : Env.

(** Lines 60-65: the argument vector, from the resolved paths. *)
Definition command_of (unoconv_path output_file input_file : string)
  : list string :=
  [ unoconv_path;
    "-f"; Py.lstrip "." (Pathlib.suffix output_file);
    "-o"; output_file;
    input_file ].

(** Lines 55-80: resolve both paths, build the command, run it and read
    the exit status. *)
Definition run_conversion (input_file output_file unoconv_path : string)
  : M bool :=
  input_file <- call (resolve env input_file) ;;
  output_file <- call (resolve env output_file) ;;
  let command := command_of unoconv_path output_file input_file in
  logging_info ("Executing command: " ++ Py.join " " command) ;;;
  emit (Popen command) ;;;
  process <- call (popen env command) ;;
  emit (Communicate command) ;;;
  if negb (returncode process =? 0)%Z then
    logging_error ("Conversion failed with return code "
                   ++ Py.str_of_int (returncode process)) ;;;
    out <- call (Py.decode (decode_error env) (stdout process)) ;;
    logging_error ("Stdout: " ++ out) ;;;
    err <- call (Py.decode (decode_error env) (stderr process)) ;;
    logging_error ("Stderr: " ++ err) ;;;
    ret false
  else
    logging_info ("Conversion successful. Output file: " ++ output_file) ;;;
    ret true.

(** Lines 39-80: the body of the [try]. *)
Definition convert_body (input_file output_file : string)
    (target_mime : option string) (unoconv_path : string) : M bool :=
  exists_ <- call (is_file env input_file) ;;
  if negb exists_ then
    logging_error ("Input file not found: " ++ input_file) ;;;
    ret false
  else if negb (Py.truthy target_mime) then
    let output_extension := Py.lstrip "." (Pathlib.suffix output_file) in
    let target_mime := guess_type env output_file in
    if negb (Py.truthy target_mime) then
      logging_error
        ("Could not infer target MIME type from output file extension: "
         ++ output_extension ++ ".  Please specify --target_mime.") ;;;
      ret false
    else
      logging_info ("Inferred target MIME type: " ++ Py.format target_mime) ;;;
      run_conversion input_file output_file unoconv_path
  else run_conversion input_file output_file unoconv_path.

(** Lines 82-87: the two handlers. *)
Definition convert_handler (e : Py.exn) : M bool :=
  if Py.is_FileNotFoundError e then
    logging_error
      ("Error: unoconv not found. Please ensure it is installed and in your PATH. "
       ++ Py.exn_str e) ;;;
    ret false
  else
    logging_exception ("An unexpected error occurred: " ++ Py.exn_str e) e ;;;
    ret false.

Definition convert_file (input_file output_file : string)
    (target_mime : option string) (unoconv_path : string) : M bool :=
  try_except
    (convert_body input_file output_file target_mime unoconv_path)
    convert_handler.

(** [setup_argparse]: the namespace, or the parser's exit after what it
    wrote to standard output. *)
Definition setup_argparse : M Namespace :=
  fun th =>
    match parse_args env with
    | Parsed args => mkOut (Val args) th []
    | ParserExit status usage => mkOut (Exit status) th (map Usage usage)
    end.

(** [print(line)]: the line reaches standard output, or the write raises
    and nothing is printed. *)
Definition print (line : string) : M unit :=
  call (write_stdout env line) ;;;
  emit (Print line).

Definition main : M unit :=
  args <- setup_argparse ;;
  (if debug args then
     setLevel Logging.DEBUG ;;;
     logging_debug "Debug mode enabled."
   else ret tt) ;;;
  ok <- convert_file (input_file args) (output_file args)
                     (target_mime args) (unoconv_path args) ;;
  if ok then print ("File successfully converted to " ++ output_file args)
  else print "File conversion failed.".

(** Running the script: [logging.basicConfig(level=INFO)] at import, then
    [main()].  The status of the process is 0 when [main] returns, 1 when
    an exception reaches the top level, and the status of a [SystemExit]. *)
Definition run_script : Out unit := main Logging.INFO.

Definition exit_status (o : Out unit) : Z :=
  match res o with
  | Val _ => 0
  | Raise _ => 1
  | Exit status => status
  end.

End Driver.

(** ** Observations on a trace *)

(** The argument vectors handed to process creation. *)
Fixpoint spawned (t : list Effect) : list (list string) :=
  match t with
  | [] => []
  | Popen c :: t' => c :: spawned t'
  | _ :: t' => spawned t'
  end.

(** The lines the program's own [print] calls have written. *)
Fixpoint printed (t : list Effect) : list string :=
  match t with
  | [] => []
  | Print l :: t' => l :: printed t'
  | _ :: t' => printed t'
  end.

(** All that reached standard output: the parser's text and the lines
    printed. *)
Fixpoint written (t : list Effect) : list string :=
  match t with
  | [] => []
  | Print l :: t' => l :: written t'
  | Usage l :: t' => l :: written t'
  | _ :: t' => written t'
  end.

(** Some log record of the trace has [text] inside its message. *)
Definition logs_text (text : string) (t : list Effect) : bool :=
  existsb (fun e => match e with
                    | Log _ msg _ => Py.contains text msg
                    | _ => false
                    end) t.

(** A piece of the program is [tame] when it leaves the logger level
    alone, writes nothing to standard output and never leaves the program. *)
Definition tame {A} (m : M A) : Prop :=
  forall th,
    lvl (m th) = th /\ written (trace (m th)) = [] /\
    forall status, res (m th) <> Exit status.

(** The record a handler of [convert_file] logs for an exception. *)
Definition handler_record (e : Py.exn) : Effect :=
  if Py.is_FileNotFoundError e then
    Log Logging.ERROR
      ("Error: unoconv not found. Please ensure it is installed and in your PATH. "
       ++ Py.exn_str e) None
  else
    Log Logging.ERROR ("An unexpected error occurred: " ++ Py.exn_str e)
      (Some e).

(** No error record in a stretch of the trace. *)
Definition no_error_record (t : list Effect) : Prop :=
  forall msg info, ~ In (Log Logging.ERROR msg info) t.

(** Effect [b] happens right after effect [a] somewhere in the trace. *)
Definition adjacent (a b : Effect) (t : list Effect) : Prop :=
  exists before after, t = (before ++ [a; b] ++ after)%list.

(** Lines 100-103: the line [main] prints for a result. *)
Definition status_line (ok : bool) (output_file : string) : string :=
  if ok then "File successfully converted to " ++ output_file
  else "File conversion failed.".

(** The record of a message at a level, when the logger lets it pass. *)
Definition logged (th l : Logging.level) (msg : string) : list Effect :=
  if Logging.enabled th l then [Log l msg None] else [].

(** ** A sample world *)

Module Sample.

Definition absolute (p : string) : string := "/abs/" ++ p.

Definition mime_of (p : string) : option string :=
  if Pathlib.suffix p =? ".pdf" then Some "application/pdf"
  else if Pathlib.suffix p =? ".docx" then
    Some "application/vnd.openxmlformats-officedocument.wordprocessingml.document"
  else None.

(** A standard output that takes every line. *)
Definition stdout_ok (line : string) : Py.outcome unit := Py.Returns tt.

(** The text of the decoding error for the byte [0xff] in front. *)
Definition invalid_start_byte (b : string) : string :=
  "'utf-8' codec can't decode byte 0xff in position 0: invalid start byte".

(** [report.odt] is on disk and the tool leaves with [status], having
    written [out] and [err]. *)
Definition world (status : Z) (out err : string) (cli : parsed) : Env :=
  mkEnv (fun p => Py.Returns (p =? "report.odt"))
        (fun p => Py.Returns (absolute p))
        mime_of
        (fun _ => Py.Returns (mkProcess status out err))
        cli stdout_ok invalid_start_byte.

(** The same disk, without the tool. *)
Definition no_tool (cli : parsed) : Env :=
  mkEnv (fun p => Py.Returns (p =? "report.odt"))
        (fun p => Py.Returns (absolute p))
        mime_of
        (fun _ => Py.Raises (Py.Exn Py.FileNotFoundError
            "[Errno 2] No such file or directory: 'unoconv'"))
        cli stdout_ok invalid_start_byte.

Definition cli_ok : parsed :=
  Parsed (mkNamespace "report.odt" "report.pdf" None "unoconv" false).

Definition converted : Env := world 0 "" "" cli_ok.

(** A failing tool whose standard output is not UTF-8. *)
Definition undecodable : string := String (ascii_of_N 255) "".
Definition complaint : string := "Error: source file could not be loaded".
Definition garbled : Env := world 1 undecodable complaint cli_ok.

Definition report_command : list string :=
  ["unoconv"; "-f"; "pdf"; "-o"; "/abs/report.pdf"; "/abs/report.odt"].

(** A command line without its positional arguments: the parser writes
    its message to standard error and leaves with status 2. *)
Definition refused : Env := world 0 "" "" (ParserExit 2 []).

(** The tool is there but may not be executed. *)
Definition permission_denied : Py.exn :=
  Py.Exn Py.PermissionError "[Errno 13] Permission denied: 'unoconv'".
Definition locked_tool : Env :=
  mkEnv (fun p => Py.Returns (p =? "report.odt"))
        (fun p => Py.Returns (absolute p))
        mime_of
        (fun _ => Py.Raises permission_denied)
        cli_ok stdout_ok invalid_start_byte.

(** The directory of the input file may not be searched. *)
Definition unreadable : Env :=
  mkEnv (fun _ => Py.Raises permission_denied)
        (fun p => Py.Returns (absolute p))
        mime_of
        (fun _ => Py.Returns (mkProcess 0 "" ""))
        cli_ok stdout_ok invalid_start_byte.

(** The paths run into a loop of symbolic links. *)
Definition symlink_loop : Py.exn :=
  Py.Exn Py.RuntimeError "Symlink loop from '/abs/report.odt'".
Definition looping : Env :=
  mkEnv (fun p => Py.Returns (p =? "report.odt"))
        (fun _ => Py.Raises symlink_loop)
        mime_of
        (fun _ => Py.Returns (mkProcess 0 "" ""))
        cli_ok stdout_ok invalid_start_byte.


(** [link.pdf] and [latest] are symbolic links to [/data/real.docx]. *)
Definition symlinked : Env :=
  mkEnv (fun p => Py.Returns (p =? "report.odt"))
        (fun p => Py.Returns
                    (if (p =? "link.pdf") || (p =? "latest")
                     then "/data/real.docx" else absolute p))
        mime_of
        (fun _ => Py.Returns (mkProcess 0 "" ""))
        cli_ok stdout_ok invalid_start_byte.

(** The MIME lookup reads a [data:] URL, which has no file suffix, as
    plain text. *)
Definition data_url : string := "data:,x".
Definition reads_urls : Env :=
  mkEnv (fun p => Py.Returns (p =? "report.odt"))
        (fun p => Py.Returns (absolute p))
        (fun p => if p =? data_url then Some "text/plain" else mime_of p)
        (fun _ => Py.Returns (mkProcess 0 "" ""))
        cli_ok stdout_ok invalid_start_byte.

(** An output name with a null character, which cannot be resolved. *)
Definition null_name : string := "out" ++ String zero ".pdf".
Definition embedded_null : Py.exn :=
  Py.Exn Py.ValueError "embedded null byte".
Definition rejects_null : Env :=
  mkEnv (fun p => Py.Returns (p =? "report.odt"))
        (fun p => if p =? null_name then Py.Raises embedded_null
                  else Py.Returns (absolute p))
        mime_of
        (fun _ => Py.Returns (mkProcess 0 "" ""))
        cli_ok stdout_ok invalid_start_byte.

(** An output name given in bytes that are not UTF-8, and a standard
    output that encodes strictly: the conversion goes through and the
    success line cannot be written. *)
Definition odd_name : string := "report" ++ undecodable ++ ".pdf".
Definition cannot_encode : Py.exn :=
  Py.Exn Py.UnicodeEncodeError
    "'utf-8' codec can't encode character '\udcff' in position 37: surrogates not allowed".
Definition strict_stdout : Env :=
  mkEnv (fun p => Py.Returns (p =? "report.odt"))
        (fun p => Py.Returns (absolute p))
        mime_of
        (fun _ => Py.Returns (mkProcess 0 "" ""))
        (Parsed (mkNamespace "report.odt" odd_name None "unoconv" false))
        (fun line => if Py.utf8_valid line then Py.Returns tt
                     else Py.Raises cannot_encode)
        invalid_start_byte.

(** The help flag: the parser writes its help text to standard output and
    leaves with status 0. *)
Definition asks_help : Env :=
  world 0 "" ""
    (ParserExit 0 ["usage: main.py [-h] [--target_mime TARGET_MIME] [--unoconv_path UNOCONV_PATH] [--debug] input_file output_file"]).

End Sample.

(** The scenario of the specification: [report.odt] to [report.pdf]. *)
Example report_to_pdf :
  let r := convert_file (Sample.world 0 "" "" Sample.cli_ok)
             "report.odt" "report.pdf" None "unoconv" Logging.INFO in
  res r = Val true /\
  spawned (trace r) =
    [["unoconv"; "-f"; "pdf"; "-o"; "/abs/report.pdf"; "/abs/report.odt"]].
Proof. split; reflexivity. Qed.

(** The scenario of the missing input: nothing is started. *)
Example missing_docx :
  let r := convert_file (Sample.world 0 "" "" Sample.cli_ok)
             "missing.docx" "out.pdf" None "unoconv" Logging.INFO in
  res r = Val false /\ spawned (trace r) = [] /\
  trace r = [Log Logging.ERROR "Input file not found: missing.docx" None].
Proof. repeat split; reflexivity. Qed.

Example suffix_samples :
  map Pathlib.suffix
      ["a.pdf"; "a/b.tar.gz"; ".bashrc"; "a."; "a.pdf/"; ".."; "x/."; "/"; ""]
  = [".pdf"; ".gz"; ""; ""; ".pdf"; ""; ""; ""; ""].
Proof. reflexivity. Qed.

Example str_of_int_samples :
  map Py.str_of_int [0; 1; 127; -15]%Z = ["0"; "1"; "127"; "-15"].
Proof. reflexivity. Qed.

Example utf8_samples :
  map Py.utf8_valid
      ["plain";
       String (ascii_of_N 195) (String (ascii_of_N 169) "");
       String (ascii_of_N 255) "";
       String (ascii_of_N 195) "";
       String (ascii_of_N 237) (String (ascii_of_N 160) (String (ascii_of_N 128) ""))]
  = [true; true; false; false; false].
Proof. reflexivity. Qed.

(** ** Basic facts on traces and on the monad *)

Arguments command_of : simpl never.
Arguments Pathlib.suffix : simpl never.
Arguments Py.lstrip : simpl never.
Arguments Py.join : simpl never.
Arguments Py.str_of_int : simpl never.
Arguments Py.utf8_valid : simpl never.
Arguments String.append : simpl never.

Lemma spawned_app (t1 t2 : list Effect) :
  spawned (t1 ++ t2)%list = (spawned t1 ++ spawned t2)%list.
Proof.
  induction t1 as [|e t1 IH]; simpl; [reflexivity|].
  destruct e; simpl; rewrite IH; reflexivity.
Qed.

Lemma printed_app (t1 t2 : list Effect) :
  printed (t1 ++ t2)%list = (printed t1 ++ printed t2)%list.
Proof.
  induction t1 as [|e t1 IH]; simpl; [reflexivity|].
  destruct e; simpl; rewrite IH; reflexivity.
Qed.

Lemma written_app (t1 t2 : list Effect) :
  written (t1 ++ t2)%list = (written t1 ++ written t2)%list.
Proof.
  induction t1 as [|e t1 IH]; simpl; [reflexivity|].
  destruct e; simpl; rewrite IH; reflexivity.
Qed.

(** Nothing on standard output, so nothing printed. *)
Lemma written_nil_printed (t : list Effect) :
  written t = [] -> printed t = [].
Proof.
  induction t as [|e t IH]; simpl; [reflexivity|].
  destruct e; simpl; try exact IH; discriminate.
Qed.

Lemma spawned_In (t : list Effect) (c : list string) :
  In c (spawned t) <-> In (Popen c) t.
Proof.
  induction t as [|e t IH]; simpl; [tauto|].
  destruct e; simpl; rewrite IH; split; intros H;
    try (right; exact H);
    try (destruct H as [H|H]; [discriminate H|exact H]).
  - destruct H as [H|H]; [left; congruence|right; exact H].
  - destruct H as [H|H]; [left; congruence|right; exact H].
Qed.

Lemma decode_returns (describe : string -> string) (b s : string) :
  Py.decode describe b = Py.Returns s <-> Py.utf8_valid b = true /\ s = b.
Proof.
  unfold Py.decode. destruct (Py.utf8_valid b); split.
  - intros H. injection H as <-. split; reflexivity.
  - intros [_ ->]. reflexivity.
  - discriminate.
  - intros [H _]. discriminate H.
Qed.

(** The suffix of a path is read off its final component alone. *)
Lemma suffix_same_name (p q : string) :
  Pathlib.name p = Pathlib.name q -> Pathlib.suffix p = Pathlib.suffix q.
Proof. unfold Pathlib.suffix. intros ->. reflexivity. Qed.

Lemma rfind_lower (c : ascii) (s : string) : (-1 <= Py.rfind c s)%Z.
Proof.
  induction s as [|a s IH]; simpl; [lia|].
  destruct (0 <=? Py.rfind c s)%Z eqn:E; [lia|].
  destruct (Ascii.eqb a c); lia.
Qed.

Lemma substring_all (s : string) : substring 0 (String.length s) s = s.
Proof. induction s as [|a s IH]; simpl; [reflexivity|]. rewrite IH. reflexivity. Qed.

Lemma slice_from_cons (i : Z) (a : ascii) (s : string) :
  (0 <= i)%Z ->
  Py.slice_from (i + 1) (String a s) = Py.slice_from i s.
Proof.
  intros Hi. unfold Py.slice_from.
  replace (Z.to_nat (i + 1)) with (S (Z.to_nat i)) by lia.
  reflexivity.
Qed.

(** From the last occurrence of [c] on, a string is [c] and a rest free
    of [c]. *)
Lemma rfind_slice (c : ascii) (s : string) :
  (0 <= Py.rfind c s)%Z ->
  exists ext,
    Py.slice_from (Py.rfind c s) s = String c ext /\
    Py.rfind c ext = (-1)%Z /\
    String.length s
    = (Z.to_nat (Py.rfind c s) + 1 + String.length ext)%nat.
Proof.
  induction s as [|a s IH]; simpl; [lia|].
  destruct (0 <=? Py.rfind c s)%Z eqn:E.
  - intros _. apply Z.leb_le in E.
    destruct (IH E) as (ext & Hs & Hr & Hl).
    exists ext. rewrite slice_from_cons by assumption.
    repeat split; [assumption|assumption|lia].
  - apply Z.leb_gt in E. pose proof (rfind_lower c s) as L.
    destruct (Ascii.eqb_spec a c) as [->|Hne]; [|lia].
    intros _. exists s. unfold Py.slice_from. simpl.
    rewrite substring_all. repeat split; lia.
Qed.


Lemma lstrip_no_period (c : ascii) (s : string) :
  Py.rfind c s = (-1)%Z -> Py.lstrip c s = s.
Proof.
  destruct s as [|a s]; [reflexivity|]. simpl.
  pose proof (rfind_lower c s) as L.
  destruct (0 <=? Py.rfind c s)%Z eqn:E.
  - apply Z.leb_le in E. lia.
  - unfold Py.lstrip. destruct (Ascii.eqb a c); [discriminate|reflexivity].
Qed.

(** A suffix is empty, or a period and a non-empty rest without period. *)
Lemma suffix_of_name_shape (n : string) :
  Pathlib.suffix_of_name n = "" \/
  exists ext,
    Pathlib.suffix_of_name n = String "." ext /\
    ext <> "" /\ Py.rfind "." ext = (-1)%Z.
Proof.
  unfold Pathlib.suffix_of_name.
  destruct ((0 <? Py.rfind "." n) && (Py.rfind "." n <? Z.of_nat (String.length n) - 1))%Z
    eqn:E; [right|left; reflexivity].
  apply andb_true_iff in E. destruct E as [E1 E2].
  apply Z.ltb_lt in E1. apply Z.ltb_lt in E2.
  destruct (rfind_slice "." n) as (ext & Hs & Hr & Hl); [lia|].
  exists ext. repeat split; [assumption| |assumption].
  intros ->. simpl in Hl. lia.
Qed.

(** So stripping the periods in front of a suffix removes exactly its
    leading one. *)
Lemma lstrip_suffix (p : string) :
  Py.lstrip "." (Pathlib.suffix p) = Pathlib.without_period (Pathlib.suffix p).
Proof.
  unfold Pathlib.suffix.
  destruct (suffix_of_name_shape (Pathlib.name p)) as [-> | (ext & -> & _ & Hr)].
  - reflexivity.
  - simpl. unfold Py.lstrip. simpl. fold (Py.lstrip "." ext).
    apply lstrip_no_period. assumption.
Qed.

(** Unfolding of the driver down to the library calls. *)
Ltac unfold_driver :=
  unfold convert_file, try_except, convert_body, convert_handler,
    run_conversion, bind, call, ret, emit, logging_info, logging_error,
    logging_exception, log_at, Py.decode, Py.is_FileNotFoundError in *.

(** One case split on the next thing the driver inspects, taking the value
    from a hypothesis when there is one. *)
Ltac driver_step :=
  match goal with
  | H : ?x = _ |- context [match ?x with _ => _ end] => rewrite H
  | |- context [match ?x with _ => _ end] =>
      lazymatch x with
      | context [match _ with _ => _ end] => fail
      | _ => destruct x eqn:?
      end
  end.

(** Facts at hand on what the driver inspects. *)
Ltac use_facts :=
  repeat match goal with
         | H : ?x = ?v |- context [?x] =>
             lazymatch v with
             | context [x] => fail
             | _ => rewrite H
             end
         end.

Ltac driver_cases :=
  unfold_driver; use_facts; repeat (cbn -[Z.eqb]; try driver_step).


(** ** An invariant of the driver's pieces *)

Lemma tame_ret {A} (a : A) : tame (ret a).
Proof. intros th. repeat split. discriminate. Qed.

Lemma tame_call {A} (o : Py.outcome A) : tame (call o).
Proof. intros th. unfold call. destruct o; repeat split; discriminate. Qed.

Lemma tame_Popen (c : list string) : tame (emit (Popen c)).
Proof. intros th. repeat split. discriminate. Qed.

Lemma tame_Communicate (c : list string) : tame (emit (Communicate c)).
Proof. intros th. repeat split. discriminate. Qed.

Lemma tame_log_at (l : Logging.level) (msg : string) (info : option Py.exn) :
  tame (log_at l msg info).
Proof.
  intros th. unfold log_at.
  destruct (Logging.enabled th l); repeat split; discriminate.
Qed.

Lemma tame_bind {A B} (m : M A) (k : A -> M B) :
  tame m -> (forall a, tame (k a)) -> tame (bind m k).
Proof.
  intros Hm Hk th. unfold bind.
  destruct (Hm th) as (Hl & Hp & Hx).
  destruct (m th) as [[a|e|c] l t]; simpl in Hl, Hp, Hx; subst l.
  - destruct (Hk a th) as (Hl' & Hp' & Hx').
    destruct (k a th) as [r l' t']; simpl in *.
    rewrite written_app, Hp, Hp'. repeat split; assumption.
  - repeat split; [assumption|discriminate].
  - exfalso. apply (Hx c). reflexivity.
Qed.

Lemma tame_if {A} (b : bool) (m1 m2 : M A) :
  tame m1 -> tame m2 -> tame (if b then m1 else m2).
Proof. destruct b; intros; assumption. Qed.

Lemma tame_try_except {A} (body : M A) (handler : Py.exn -> M A) :
  tame body -> (forall e, tame (handler e)) -> tame (try_except body handler).
Proof.
  intros Hb Hh th. unfold try_except.
  destruct (Hb th) as (Hl & Hp & Hx).
  destruct (body th) as [[a|e|c] l t]; simpl in Hl, Hp, Hx; subst l.
  - repeat split; [assumption|discriminate].
  - destruct (Hh e th) as (Hl' & Hp' & Hx').
    destruct (handler e th) as [r l' t']; simpl in *.
    rewrite written_app, Hp, Hp'. repeat split; assumption.
  - exfalso. apply (Hx c). reflexivity.
Qed.

Create HintDb tame.
#[local] Hint Resolve tame_ret tame_call tame_Popen tame_Communicate
  tame_log_at tame_bind tame_if tame_try_except : tame.

Lemma tame_run_conversion (env : Env) (i o u : string) :
  tame (run_conversion env i o u).
Proof.
  unfold run_conversion, logging_info, logging_error.
  auto 20 with tame.
Qed.

Lemma tame_convert_body (env : Env) (i o : string) (t : option string)
    (u : string) :
  tame (convert_body env i o t u).
Proof.
  unfold convert_body, logging_info, logging_error.
  pose proof (tame_run_conversion env i o u).
  auto 20 with tame.
Qed.

Lemma tame_convert_handler (e : Py.exn) : tame (convert_handler e).
Proof.
  unfold convert_handler, logging_error, logging_exception.
  auto 20 with tame.
Qed.

Lemma tame_convert_file (env : Env) (i o : string) (t : option string)
    (u : string) :
  tame (convert_file env i o t u).
Proof.
  unfold convert_file.
  apply tame_try_except; [apply tame_convert_body|apply tame_convert_handler].
Qed.

(** Error records pass every logger level, so a handler always leaves its
    record and returns [False]. *)
Lemma convert_handler_out (e : Py.exn) (th : Logging.level) :
  convert_handler e th = mkOut (Val false) th [handler_record e].
Proof.
  unfold convert_handler, handler_record.
  destruct (Py.is_FileNotFoundError e); destruct th; reflexivity.
Qed.

(** [convert_file] is its body when the body returns, and [False] after the
    record of the handler when the body raises. *)
Lemma convert_file_out (env : Env) (i o : string) (t : option string)
    (u : string) (th : Logging.level) :
  convert_file env i o t u th
  = match convert_body env i o t u th with
    | mkOut (Raise e) l tr => mkOut (Val false) l (tr ++ [handler_record e])
    | other => other
    end.
Proof.
  unfold convert_file, try_except.
  destruct (convert_body env i o t u th) as [[ok|e|c] l tr];
    try reflexivity.
  rewrite convert_handler_out. reflexivity.
Qed.

Lemma convert_file_returns (env : Env) (i o : string) (t : option string)
    (u : string) (th : Logging.level) :
  exists ok, res (convert_file env i o t u th) = Val ok.
Proof.
  rewrite convert_file_out.
  destruct (tame_convert_body env i o t u th) as (_ & _ & Hx).
  destruct (convert_body env i o t u th) as [[ok|e|c] l tr]; simpl in *.
  - exists ok. reflexivity.
  - exists false. reflexivity.
  - exfalso. apply (Hx c). reflexivity.
Qed.

(** ** What [convert_file] starts and returns *)

Section Claims.

Variable env : Env.
Variables (input_file output_file unoconv_path : string).
Variable th : Logging.level.

Local Abbreviation convert target_mime :=
  (convert_file env input_file output_file target_mime unoconv_path th).

(** What the driver starts, whatever the target format given: nothing, or
    the one command built from the two resolved paths. *)
Lemma spawned_convert_file (target_mime : option string) :
  spawned (trace (convert target_mime)) = [] \/
  exists abs_input abs_output,
    is_file env input_file = Py.Returns true /\
    resolve env input_file = Py.Returns abs_input /\
    resolve env output_file = Py.Returns abs_output /\
    spawned (trace (convert target_mime))
    = [command_of unoconv_path abs_output abs_input].
Proof.
  destruct (is_file env input_file) as [[|]|e0] eqn:Hf;
  destruct (resolve env input_file) as [ai|e1] eqn:Hi;
  destruct (resolve env output_file) as [ao|e2] eqn:Ho.
  all: try (left; destruct th; driver_cases; reflexivity).
  all: destruct th; driver_cases; try (left; reflexivity).
  all: right; exists ai, ao; repeat split; reflexivity.
Qed.

(** C1, as the code has it.  With the input file on disk, an output path
    whose extension the MIME table knows and two paths that resolve, the
    argument vector handed to process creation is exactly
    [[tool; "-f"; ext; "-o"; abs_output; abs_input]]: the two paths in
    resolved form, and [ext] the suffix of the resolved output path with
    exactly its leading period removed.  It is the suffix of the output
    path as given whenever resolution keeps the final component. *)
Theorem convert_file_argument_vector
    (target_mime : option string) (abs_input abs_output : string) :
  is_file env input_file = Py.Returns true ->
  Py.truthy (guess_type env output_file) = true ->
  resolve env input_file = Py.Returns abs_input ->
  resolve env output_file = Py.Returns abs_output ->
  spawned (trace (convert target_mime))
  = [[unoconv_path; "-f"; Py.lstrip "." (Pathlib.suffix abs_output);
      "-o"; abs_output; abs_input]] /\
  Py.lstrip "." (Pathlib.suffix abs_output)
  = Pathlib.without_period (Pathlib.suffix abs_output) /\
  (Pathlib.name abs_output = Pathlib.name output_file ->
   Py.lstrip "." (Pathlib.suffix abs_output)
   = Pathlib.without_period (Pathlib.suffix output_file)).
Proof.
  intros Hf Hg Hi Ho. split; [|split].
  - destruct th; driver_cases; reflexivity.
  - apply lstrip_suffix.
  - intros Hn. rewrite (suffix_same_name _ _ Hn). apply lstrip_suffix.
Qed.


(** C4. When the input path is not an existing regular file the call
    returns failure at once: one error record is logged and no process is
    started. *)
Theorem missing_input_fails (target_mime : option string) :
  is_file env input_file = Py.Returns false ->
  res (convert target_mime) = Val false /\
  spawned (trace (convert target_mime)) = [] /\
  trace (convert target_mime)
  = [Log Logging.ERROR ("Input file not found: " ++ input_file) None].
Proof.
  intros Hf. destruct th; driver_cases; repeat split; reflexivity.
Qed.

(** C5, as the code has it.  Without an explicit target format, when the
    lookup of the output path in the MIME table yields nothing, the call
    returns failure and no process is started. *)
Theorem unresolved_format_fails (target_mime : option string) :
  Py.truthy target_mime = false ->
  Py.truthy (guess_type env output_file) = false ->
  res (convert target_mime) = Val false /\
  spawned (trace (convert target_mime)) = [].
Proof.
  intros Ht Hg.
  destruct (is_file env input_file) as [[|]|e0] eqn:Hf;
    destruct th; driver_cases; split; reflexivity.
Qed.

(** C10, as the code has it.  With an explicit target format the
    extension of the output path is not checked: for an input file on
    disk and any output path, when both paths resolve, the MIME table is
    not consulted and the command is started; its ["-f"] argument is the
    suffix of the resolved output path without its period, the empty
    string when that path has no suffix (and so when the path as given
    has none, whenever resolution keeps the final component). *)
Theorem explicit_format_skips_validation
    (mime abs_input abs_output : string) :
  mime <> "" ->
  is_file env input_file = Py.Returns true ->
  resolve env input_file = Py.Returns abs_input ->
  resolve env output_file = Py.Returns abs_output ->
  spawned (trace (convert (Some mime)))
  = [[unoconv_path; "-f"; Py.lstrip "." (Pathlib.suffix abs_output);
      "-o"; abs_output; abs_input]] /\
  (Pathlib.suffix abs_output = "" ->
   spawned (trace (convert (Some mime)))
   = [[unoconv_path; "-f"; ""; "-o"; abs_output; abs_input]]) /\
  (Pathlib.name abs_output = Pathlib.name output_file ->
   Pathlib.suffix output_file = "" ->
   spawned (trace (convert (Some mime)))
   = [[unoconv_path; "-f"; ""; "-o"; abs_output; abs_input]]).
Proof.
  intros Hm Hf Hi Ho.
  assert (T : Py.truthy (Some mime) = true)
    by (simpl; destruct (String.eqb_spec mime ""); [contradiction|reflexivity]).
  assert (E : spawned (trace (convert (Some mime)))
              = [command_of unoconv_path abs_output abs_input])
    by (destruct th; driver_cases; reflexivity).
  split; [exact E|]. split.
  - intros Hs. rewrite E. unfold command_of. rewrite Hs. reflexivity.
  - intros Hn Hs. rewrite E. unfold command_of.
    rewrite (suffix_same_name _ _ Hn), Hs. reflexivity.
Qed.

(** A command found in the trace is the one built from the resolved
    paths, and it is the only one. *)
Lemma started_command (target_mime : option string)
    (command : list string) :
  In (Popen command) (trace (convert target_mime)) ->
  exists abs_input abs_output,
    is_file env input_file = Py.Returns true /\
    resolve env input_file = Py.Returns abs_input /\
    resolve env output_file = Py.Returns abs_output /\
    command = command_of unoconv_path abs_output abs_input /\
    spawned (trace (convert target_mime)) = [command].
Proof.
  intros Hin. apply spawned_In in Hin.
  destruct (spawned_convert_file target_mime)
    as [E | (ai & ao & Hf & Hi & Ho & E)]; rewrite E in Hin.
  - destruct Hin.
  - destruct Hin as [<- | []]. exists ai, ao. repeat split; assumption.
Qed.

(** Closes the leaves of a case analysis on a started command. *)
Ltac leaf :=
  intros; try discriminate;
  repeat match goal with
         | H : negb _ = true |- _ => apply negb_true_iff in H
         | H : negb _ = false |- _ => apply negb_false_iff in H
         | H : (_ =? _)%Z = true |- _ => apply Z.eqb_eq in H
         | H : (_ =? _)%Z = false |- _ => apply Z.eqb_neq in H
         end;
  repeat split; intros;
  try reflexivity; try congruence; try (simpl; tauto).

(** What the exit status decides.  Once the child has been started and
    has ended, the call returns success exactly when its exit status is
    zero, whatever the streams hold.  On another status it returns
    failure; the text of the captured standard output is logged as it is
    when these bytes are well-formed UTF-8, and then the text of the
    captured standard error when those are too. *)
Theorem exit_status_decides (target_mime : option string)
    (command : list string) (process : Process) :
  In (Popen command) (trace (convert target_mime)) ->
  popen env command = Py.Returns process ->
  (res (convert target_mime) = Val true <-> returncode process = 0%Z) /\
  (returncode process <> 0%Z ->
   res (convert target_mime) = Val false /\
   (Py.utf8_valid (stdout process) = true ->
    In (Log Logging.ERROR ("Stdout: " ++ stdout process) None)
       (trace (convert target_mime)) /\
    (Py.utf8_valid (stderr process) = true ->
     In (Log Logging.ERROR ("Stderr: " ++ stderr process) None)
        (trace (convert target_mime))))).
Proof.
  intros Hin Hp.
  destruct (started_command _ _ Hin) as (ai & ao & Hf & Hi & Ho & -> & E).
  clear Hin. revert E.
  destruct th; driver_cases; leaf.
Qed.

(** C6, as the code has it.  When the creation of the process raises
    [FileNotFoundError], the error of a tool that is not found, the call
    returns failure (nothing is raised) and the last thing it does is to
    log the error record of the missing tool. *)
Theorem missing_tool_reported (target_mime : option string)
    (command : list string) (e : Py.exn) :
  In (Popen command) (trace (convert target_mime)) ->
  popen env command = Py.Raises e ->
  Py.exn_class e = Py.FileNotFoundError ->
  res (convert target_mime) = Val false /\
  exists before,
    spawned before = [] /\
    trace (convert target_mime)
    = (before ++
       [Popen command;
        Log Logging.ERROR
          ("Error: unoconv not found. Please ensure it is installed and in your PATH. "
           ++ Py.exn_str e) None])%list.
Proof.
  intros Hin Hp Hc.
  destruct (started_command _ _ Hin) as (ai & ao & Hf & Hi & Ho & -> & E).
  clear Hin. revert E.
  destruct th; driver_cases; intros; try discriminate;
    (split; [reflexivity|]);
    first [ exists []; split; reflexivity
          | eexists [_]; (split; [|reflexivity]); reflexivity
          | eexists [_; _]; (split; [|reflexivity]); reflexivity ].
Qed.

(** C7. The call always returns a boolean.  When anything in the body of
    the [try] raises, whatever the exception and wherever it comes from,
    the call returns failure and ends by logging an error record that
    carries the text of the exception. *)
Theorem convert_file_never_raises (target_mime : option string) :
  (exists ok, res (convert target_mime) = Val ok) /\
  (forall e,
     res (convert_body env input_file output_file target_mime
                       unoconv_path th) = Raise e ->
     res (convert target_mime) = Val false /\
     trace (convert target_mime)
     = (trace (convert_body env input_file output_file target_mime
                            unoconv_path th) ++ [handler_record e])%list).
Proof.
  split; [apply convert_file_returns|].
  intros e He. rewrite convert_file_out.
  destruct (convert_body env input_file output_file target_mime
              unoconv_path th) as [r l tr].
  simpl in He. subst r. split; reflexivity.
Qed.

(** With the checks passed and both paths resolved, the one command is
    started. *)
Lemma spawned_when_validated (target_mime : option string)
    (abs_input abs_output : string) :
  is_file env input_file = Py.Returns true ->
  Py.truthy target_mime = true \/
  Py.truthy (guess_type env output_file) = true ->
  resolve env input_file = Py.Returns abs_input ->
  resolve env output_file = Py.Returns abs_output ->
  spawned (trace (convert target_mime))
  = [command_of unoconv_path abs_output abs_input].
Proof.
  intros Hf [Ht|Ht] Hi Ho; destruct th; driver_cases; reflexivity.
Qed.

(** Without a target format, given or found, nothing is started. *)
Lemma nothing_without_format (target_mime : option string) :
  Py.truthy target_mime = false ->
  Py.truthy (guess_type env output_file) = false ->
  spawned (trace (convert target_mime)) = [].
Proof.
  intros Ht Hg.
  destruct (is_file env input_file) as [[|]|e0] eqn:Hf;
    destruct th; driver_cases; reflexivity.
Qed.

(** C9, as the code has it.  A call starts at most one child, and exactly
    one in the calls that reach the creation of the process: the input
    file is on disk, a target format is given or found, and both paths
    resolve.  When the child is created, the call waits for it to end
    right after creating it; nothing is started before or after, and no
    failure is logged before the child has ended. *)
Theorem one_child_after_validation (target_mime : option string) :
  (length (spawned (trace (convert target_mime))) <= 1)%nat /\
  (length (spawned (trace (convert target_mime))) = 1%nat <->
   is_file env input_file = Py.Returns true /\
   (Py.truthy target_mime = true \/
    Py.truthy (guess_type env output_file) = true) /\
   (exists abs_input, resolve env input_file = Py.Returns abs_input) /\
   (exists abs_output, resolve env output_file = Py.Returns abs_output)) /\
  forall command process,
    In (Popen command) (trace (convert target_mime)) ->
    popen env command = Py.Returns process ->
    exists before after,
      trace (convert target_mime)
      = (before ++ [Popen command; Communicate command] ++ after)%list /\
      spawned before = [] /\ spawned after = [] /\
      no_error_record before.
Proof.
  split; [|split].
  - destruct (spawned_convert_file target_mime)
      as [E | (ai & ao & _ & _ & _ & E)]; rewrite E; simpl; lia.
  - split.
    + intros L.
      destruct (spawned_convert_file target_mime)
        as [E | (ai & ao & Hf & Hi & Ho & E)];
        [rewrite E in L; discriminate L|].
      split; [exact Hf|]. split; [|split; eauto].
      destruct (Py.truthy target_mime) eqn:Ht; [left; reflexivity|].
      destruct (Py.truthy (guess_type env output_file)) eqn:Hg;
        [right; reflexivity|].
      rewrite (nothing_without_format _ Ht Hg) in E. discriminate E.
    + intros (Hf & Ht & [ai Hi] & [ao Ho]).
      rewrite (spawned_when_validated _ _ _ Hf Ht Hi Ho). reflexivity.
  - intros command process Hin Hp.
    destruct (started_command _ _ Hin) as (ai & ao & Hf & Hi & Ho & -> & E).
    clear Hin. revert E. unfold no_error_record.
    destruct th; driver_cases; intros; try discriminate;
      first [ exists []; eexists; split; [reflexivity|]
            | eexists [_]; eexists; split; [reflexivity|]
            | eexists [_; _]; eexists; split; [reflexivity|] ];
      repeat split; try reflexivity;
      intros msg info H; simpl in H; intuition discriminate.
Qed.

End Claims.

(** ** The script *)

(** The whole run for an accepted command line: the debug record when
    asked for, the conversion, and the status line when standard output
    takes it. *)
Lemma main_out (env : Env) (args : Namespace) :
  parse_args env = Parsed args ->
  exists ok,
    res (convert_file env (input_file args) (output_file args)
           (target_mime args) (unoconv_path args)
           (if debug args then Logging.DEBUG else Logging.INFO)) = Val ok /\
    run_script env
    = mkOut
        match write_stdout env (status_line ok (output_file args)) with
        | Py.Returns _ => Val tt
        | Py.Raises e => Raise e
        end
        (if debug args then Logging.DEBUG else Logging.INFO)
        ((if debug args
          then [Log Logging.DEBUG "Debug mode enabled." None] else [])
         ++ trace (convert_file env (input_file args) (output_file args)
                     (target_mime args) (unoconv_path args)
                     (if debug args then Logging.DEBUG else Logging.INFO))
         ++ match write_stdout env (status_line ok (output_file args)) with
            | Py.Returns _ => [Print (status_line ok (output_file args))]
            | Py.Raises _ => []
            end).
Proof.
  intros Hparse.
  set (th := if debug args then Logging.DEBUG else Logging.INFO).
  destruct (convert_file_returns env (input_file args) (output_file args)
              (target_mime args) (unoconv_path args) th) as [ok Hok].
  destruct (tame_convert_file env (input_file args) (output_file args)
              (target_mime args) (unoconv_path args) th) as (Hl & _ & _).
  exists ok. split; [exact Hok|].
  unfold run_script, main, bind, setup_argparse, print, call, emit.
  rewrite Hparse. subst th. unfold status_line.
  destruct (debug args); cbn;
    match goal with
    | |- context [convert_file ?e ?i ?o ?t ?u ?l] =>
        destruct (convert_file e i o t u l) as [r l' tr]
    end; simpl in Hok, Hl; subst r l';
    destruct ok; cbn;
    match goal with
    | |- context [write_stdout ?e ?x] => destruct (write_stdout e x)
    end; cbn; rewrite ?app_nil_r; reflexivity.
Qed.

(** C8, as the code has it.  In a run whose command line the parser
    accepts, [convert_file] returns a boolean that only selects the line:
    the success message with the output file as given for [True], the
    failure message for [False].  When standard output takes that line,
    it is the one line written there and the process ends with status 0
    in both cases; when the write raises, nothing is written and the
    process ends with status 1. *)
Theorem main_reports_once (env : Env) (args : Namespace) :
  parse_args env = Parsed args ->
  exists ok,
    res (convert_file env (input_file args) (output_file args)
           (target_mime args) (unoconv_path args)
           (if debug args then Logging.DEBUG else Logging.INFO)) = Val ok /\
    (write_stdout env (status_line ok (output_file args)) = Py.Returns tt ->
     written (trace (run_script env)) = [status_line ok (output_file args)] /\
     exit_status (run_script env) = 0%Z) /\
    (forall e,
       write_stdout env (status_line ok (output_file args)) = Py.Raises e ->
       written (trace (run_script env)) = [] /\
       exit_status (run_script env) = 1%Z).
Proof.
  intros Hparse.
  destruct (main_out env args Hparse) as (ok & Hok & E).
  destruct (tame_convert_file env (input_file args) (output_file args)
              (target_mime args) (unoconv_path args)
              (if debug args then Logging.DEBUG else Logging.INFO))
    as (_ & Hw & _).
  exists ok. split; [exact Hok|].
  rewrite E. unfold exit_status. cbn [res trace].
  rewrite !written_app, Hw.
  split.
  - intros ->. destruct (debug args); split; reflexivity.
  - intros e ->. destruct (debug args); split; reflexivity.
Qed.

(** ** Further behaviour of [convert_file] *)

Arguments adjacent : simpl never.

(** Turns the tests met on the way into facts on integers. *)
Ltac settle :=
  intros; try discriminate;
  repeat match goal with
         | H : negb _ = true |- _ => apply negb_true_iff in H
         | H : negb _ = false |- _ => apply negb_false_iff in H
         | H : (_ =? _)%Z = true |- _ => apply Z.eqb_eq in H
         | H : (_ =? _)%Z = false |- _ => apply Z.eqb_neq in H
         end.

(** Splits a concrete trace in front of its first effect [e]. *)
Ltac split_before e :=
  match goal with
  | |- exists before after, ?t = _ =>
      let rec go pre l :=
        lazymatch l with
        | e :: _ => exists pre
        | ?x :: ?rest => go (pre ++ [x])%list rest
        end in
      go (@nil Effect) t; eexists; reflexivity
  end.

Ltac no_errors :=
  unfold no_error_record; intros ? ? ?;
  match goal with H : In _ _ |- _ => simpl in H; intuition discriminate end.

(** A call that returns [True] has gone all the way: the file was there,
    both paths resolved, the tool was created and left with status 0. *)
Lemma true_result (env : Env) (input_file output_file unoconv_path : string)
    (th : Logging.level) (target_mime : option string) :
  res (convert_file env input_file output_file target_mime unoconv_path th)
  = Val true ->
  exists abs_input abs_output process,
    is_file env input_file = Py.Returns true /\
    resolve env input_file = Py.Returns abs_input /\
    resolve env output_file = Py.Returns abs_output /\
    popen env (command_of unoconv_path abs_output abs_input)
    = Py.Returns process /\
    returncode process = 0%Z /\
    spawned (trace (convert_file env input_file output_file target_mime
                                 unoconv_path th))
    = [command_of unoconv_path abs_output abs_input].
Proof.
  destruct (is_file env input_file) as [[|]|e0] eqn:Hf;
    destruct (resolve env input_file) as [ai|e1] eqn:Hi;
    destruct (resolve env output_file) as [ao|e2] eqn:Ho;
    try (destruct (popen env (command_of unoconv_path ao ai))
           as [p|e3] eqn:Hp);
    destruct th; driver_cases; settle;
    exists ai, ao, p; repeat split; try assumption; reflexivity.
Qed.

Section Behaviour.

Variable env : Env.
Variables (input_file output_file unoconv_path : string).
Variable th : Logging.level.

Local Abbreviation convert target_mime :=
  (convert_file env input_file output_file target_mime unoconv_path th).

Local Abbreviation started target_mime :=
  (started_command env input_file output_file unoconv_path th target_mime).

(** X1. [True] is returned only after a clean run: the input file was on
    disk, both paths resolved, the one command was started and waited
    for, it left with status 0, and no error record was logged. *)
Theorem success_means_clean_exit (target_mime : option string) :
  res (convert target_mime) = Val true ->
  exists abs_input abs_output process,
    is_file env input_file = Py.Returns true /\
    resolve env input_file = Py.Returns abs_input /\
    resolve env output_file = Py.Returns abs_output /\
    popen env (command_of unoconv_path abs_output abs_input)
    = Py.Returns process /\
    returncode process = 0%Z /\
    spawned (trace (convert target_mime))
    = [command_of unoconv_path abs_output abs_input] /\
    In (Communicate (command_of unoconv_path abs_output abs_input))
       (trace (convert target_mime)) /\
    no_error_record (trace (convert target_mime)).
Proof.
  destruct (is_file env input_file) as [[|]|e0] eqn:Hf;
    destruct (resolve env input_file) as [ai|e1] eqn:Hi;
    destruct (resolve env output_file) as [ao|e2] eqn:Ho;
    try (destruct (popen env (command_of unoconv_path ao ai))
           as [p|e3] eqn:Hp);
    destruct th; driver_cases; settle;
    exists ai, ao, p; repeat split; try assumption; try reflexivity;
    try (simpl; tauto); no_errors.
Qed.

(** X2. A failure is not silent.  With a logger that lets ERROR records
    pass, as it does at the INFO and DEBUG levels the script sets,
    whenever the call returns [False] an error record is in the log. *)
Theorem failure_is_logged (target_mime : option string) :
  Logging.enabled th Logging.ERROR = true ->
  res (convert_file env input_file output_file target_mime unoconv_path th)
  = Val false ->
  exists msg info,
    In (Log Logging.ERROR msg info)
       (trace (convert_file env input_file output_file target_mime
                            unoconv_path th)).
Proof.
  intros Hth. clear Hth.
  destruct th; driver_cases; settle; do 2 eexists; simpl; eauto 10.
Qed.

(** X3. When the logger lets INFO pass, the command line is logged right
    before the command is started: the arguments joined by spaces. *)
Theorem command_logged_before_start (target_mime : option string)
    (command : list string) :
  Logging.enabled th Logging.INFO = true ->
  In (Popen command) (trace (convert target_mime)) ->
  adjacent
    (Log Logging.INFO ("Executing command: " ++ Py.join " " command) None)
    (Popen command)
    (trace (convert target_mime)).
Proof.
  intros Hth Hin.
  destruct (started _ _ Hin) as (ai & ao & Hf & Hi & Ho & -> & E).
  clear Hin. revert E.
  destruct th; try discriminate Hth; clear Hth;
    driver_cases; settle; unfold adjacent;
    split_before
      (Log Logging.INFO
         ("Executing command: "
          ++ Py.join " " (command_of unoconv_path ao ai)) None).
Qed.

(** X4. When the child leaves with a status other than 0, the first thing
    done after waiting for it is to log that status in decimal, whether
    the streams decode or not. *)
Theorem failing_status_logged (target_mime : option string)
    (command : list string) (process : Process) :
  In (Popen command) (trace (convert target_mime)) ->
  popen env command = Py.Returns process ->
  returncode process <> 0%Z ->
  adjacent
    (Communicate command)
    (Log Logging.ERROR
       ("Conversion failed with return code "
        ++ Py.str_of_int (returncode process)) None)
    (trace (convert target_mime)).
Proof.
  intros Hin Hp Hrc.
  destruct (started _ _ Hin) as (ai & ao & Hf & Hi & Ho & -> & E).
  clear Hin. revert E.
  destruct th; driver_cases; settle; try contradiction; unfold adjacent;
    split_before (Communicate (command_of unoconv_path ao ai)).
Qed.

(** X5. When the creation of the process fails with anything but
    [FileNotFoundError] (a tool that may not be executed, say), the call
    returns [False], does not wait for a child, and ends on the record
    of the catch-all handler, which carries the exception. *)
Theorem spawn_error_reported (target_mime : option string)
    (command : list string) (e : Py.exn) :
  In (Popen command) (trace (convert target_mime)) ->
  popen env command = Py.Raises e ->
  Py.exn_class e <> Py.FileNotFoundError ->
  res (convert target_mime) = Val false /\
  ~ In (Communicate command) (trace (convert target_mime)) /\
  exists before,
    trace (convert target_mime)
    = (before ++
       [Popen command;
        Log Logging.ERROR ("An unexpected error occurred: " ++ Py.exn_str e)
          (Some e)])%list.
Proof.
  intros Hin Hp Hc.
  destruct (started _ _ Hin) as (ai & ao & Hf & Hi & Ho & -> & E).
  clear Hin. revert E.
  destruct th; driver_cases; settle; try contradiction;
    (split; [reflexivity|]);
    (split; [simpl; intuition discriminate|]);
    first [ exists []; reflexivity | eexists [_]; reflexivity
          | eexists [_; _]; reflexivity ].
Qed.

(** X6. When the test of the input file itself raises, the call returns
    [False] and its only effect is the record of the handler that takes
    the exception: the message of the missing tool for a
    [FileNotFoundError], though no tool was looked for. *)
Theorem validation_error_starts_nothing (target_mime : option string)
    (e : Py.exn) :
  is_file env input_file = Py.Raises e ->
  res (convert target_mime) = Val false /\
  trace (convert target_mime) = [handler_record e].
Proof.
  intros Hf. rewrite convert_file_out.
  unfold convert_body, bind, call. rewrite Hf. split; reflexivity.
Qed.

(** X7. When the resolution of the input path or of the output path
    raises, after the checks have passed, the call returns [False],
    starts nothing and ends on the record of the handler. *)
Theorem resolution_error_starts_nothing (target_mime : option string)
    (e : Py.exn) :
  is_file env input_file = Py.Returns true ->
  resolve env input_file = Py.Raises e \/
  (exists abs_input, resolve env input_file = Py.Returns abs_input) /\
  resolve env output_file = Py.Raises e ->
  Py.truthy target_mime = true \/
  Py.truthy (guess_type env output_file) = true ->
  res (convert target_mime) = Val false /\
  spawned (trace (convert target_mime)) = [] /\
  exists before,
    trace (convert target_mime) = (before ++ [handler_record e])%list.
Proof.
  intros Hf Hr Ht. unfold handler_record.
  destruct Hr as [Hi | [[ai Hi] Ho]]; destruct Ht as [Ht | Ht];
    destruct th; driver_cases; settle; try congruence;
    repeat split; try reflexivity;
    first [ exists []; reflexivity | eexists [_]; reflexivity ].
Qed.

(** X8. The inferred MIME type is only logged.  With the input file on
    disk and a type found for the output path, a call without target
    format returns what a call with any explicit format returns, and its
    trace is the same after the record of the inferred type. *)
Theorem inference_only_logs (mime : string) :
  is_file env input_file = Py.Returns true ->
  Py.truthy (guess_type env output_file) = true ->
  mime <> "" ->
  res (convert None) = res (convert (Some mime)) /\
  trace (convert None)
  = (logged th Logging.INFO
       ("Inferred target MIME type: " ++ Py.format (guess_type env output_file))
     ++ trace (convert (Some mime)))%list.
Proof.
  intros Hf Hg Hm.
  assert (T : Py.truthy (Some mime) = true)
    by (simpl; destruct (String.eqb_spec mime ""); [contradiction|reflexivity]).
  rewrite !convert_file_out.
  unfold convert_body, bind, call. rewrite Hf, Hg, T. cbn [negb].
  unfold logging_info, log_at, logged.
  destruct th; cbn;
    match goal with
    | |- context [run_conversion ?e ?i ?o ?u ?l] =>
        destruct (run_conversion e i o u l) as [[ok|x|c] l' tr]
    end; split; reflexivity.
Qed.

(** X9. Every command that is started has six arguments, and the format
    after ["-f"] holds no period. *)
Theorem format_has_no_period (target_mime : option string)
    (command : list string) :
  In (Popen command) (trace (convert target_mime)) ->
  exists tool format abs_output abs_input,
    command = [tool; "-f"; format; "-o"; abs_output; abs_input] /\
    Py.rfind "." format = (-1)%Z.
Proof.
  intros Hin.
  destruct (started _ _ Hin) as (ai & ao & _ & _ & _ & -> & _).
  exists unoconv_path, (Py.lstrip "." (Pathlib.suffix ao)), ao, ai.
  split; [reflexivity|].
  rewrite lstrip_suffix. unfold Pathlib.suffix.
  destruct (suffix_of_name_shape (Pathlib.name ao))
    as [-> | (ext & -> & _ & Hr)].
  - reflexivity.
  - exact Hr.
Qed.

(** X15. The exit status of the child selects the result.  Once the
    command has been started and the child has ended, the call returns
    [True] exactly when the status is 0, whatever the captured streams
    hold, and [False] on every other status. *)
Theorem exit_status_selects_result (target_mime : option string)
    (command : list string) (process : Process) :
  In (Popen command)
     (trace (convert_file env input_file output_file target_mime
                          unoconv_path th)) ->
  popen env command = Py.Returns process ->
  (res (convert_file env input_file output_file target_mime unoconv_path th)
   = Val true <-> returncode process = 0%Z) /\
  (returncode process <> 0%Z ->
   res (convert_file env input_file output_file target_mime unoconv_path th)
   = Val false).
Proof.
  intros Hin Hp.
  destruct (exit_status_decides env input_file output_file unoconv_path th
              target_mime command process Hin Hp) as [Hiff Hfail].
  split; [exact Hiff|].
  intros Hrc. exact (proj1 (Hfail Hrc)).
Qed.

End Behaviour.

Lemma rfind_after_stem (stem ext : string) :
  Py.rfind "." ext = (-1)%Z ->
  Py.rfind "." (stem ++ String "." ext) = Z.of_nat (String.length stem).
Proof.
  intros Hr. induction stem as [|a stem IH].
  - simpl. cbn [String.append]. simpl. rewrite Hr. reflexivity.
  - change (String a stem ++ String "." ext)
      with (String a (stem ++ String "." ext)).
    cbn [Py.rfind]. rewrite IH.
    destruct (0 <=? Z.of_nat (String.length stem))%Z eqn:E.
    + cbn [String.length]. lia.
    + apply Z.leb_gt in E. lia.
Qed.

Lemma slice_after_stem (stem rest : string) :
  Py.slice_from (Z.of_nat (String.length stem)) (stem ++ rest) = rest.
Proof.
  induction stem as [|a stem IH].
  - unfold Py.slice_from. simpl. rewrite Nat.sub_0_r. apply substring_all.
  - change (String a stem ++ rest) with (String a (stem ++ rest)).
    cbn [String.length]. rewrite Nat2Z.inj_succ, <- Z.add_1_r.
    rewrite slice_from_cons by lia. exact IH.
Qed.

Lemma length_append (s t : string) :
  String.length (s ++ t) = (String.length s + String.length t)%nat.
Proof.
  induction s as [|a s IH]; [reflexivity|].
  change (String a s ++ t) with (String a (s ++ t)).
  cbn [String.length]. rewrite IH. reflexivity.
Qed.

(** The suffix of [stem.ext] is [.ext] when the stem is not empty and the
    extension is not empty and holds no period. *)
Lemma suffix_of_stem_ext (stem ext : string) :
  stem <> "" -> ext <> "" -> Py.rfind "." ext = (-1)%Z ->
  Pathlib.suffix_of_name (stem ++ String "." ext) = String "." ext.
Proof.
  intros Hs He Hr. unfold Pathlib.suffix_of_name.
  rewrite rfind_after_stem by assumption.
  rewrite length_append. cbn [String.length].
  assert (0 < String.length stem)%nat
    by (destruct stem; [contradiction|simpl; lia]).
  assert (0 < String.length ext)%nat
    by (destruct ext; [contradiction|simpl; lia]).
  replace ((0 <? Z.of_nat (String.length stem))
           && (Z.of_nat (String.length stem)
               <? Z.of_nat (String.length stem + S (String.length ext)) - 1))%Z
    with true.
  - apply slice_after_stem.
  - symmetry. apply andb_true_iff. split; apply Z.ltb_lt; lia.
Qed.

(** X10. When the final component of the resolved output path is
    [stem.ext], with a stem that is not empty and an extension that is
    not empty and holds no period, the format handed to the tool is
    [ext]: the text after the last period of the file name. *)
Theorem format_of_named_output (env : Env)
    (input_file output_file unoconv_path : string) (th : Logging.level)
    (target_mime : option string) (abs_input abs_output stem ext : string) :
  is_file env input_file = Py.Returns true ->
  Py.truthy target_mime = true \/
  Py.truthy (guess_type env output_file) = true ->
  resolve env input_file = Py.Returns abs_input ->
  resolve env output_file = Py.Returns abs_output ->
  Pathlib.name abs_output = (stem ++ String "." ext) ->
  stem <> "" -> ext <> "" -> Py.rfind "." ext = (-1)%Z ->
  spawned (trace (convert_file env input_file output_file target_mime
                               unoconv_path th))
  = [[unoconv_path; "-f"; ext; "-o"; abs_output; abs_input]].
Proof.
  intros Hf Ht Hi Ho Hn Hs He Hr.
  assert (E : Py.lstrip "." (Pathlib.suffix abs_output) = ext).
  { rewrite lstrip_suffix. unfold Pathlib.suffix. rewrite Hn.
    rewrite suffix_of_stem_ext by assumption. reflexivity. }
  destruct (spawned_convert_file env input_file output_file unoconv_path th
              target_mime)
    as [N | (ai & ao & _ & Hi' & Ho' & S)].
  - exfalso. revert N. clear E Hn.
    destruct Ht as [Ht|Ht]; destruct th; driver_cases; discriminate.
  - rewrite S. rewrite Hi in Hi'. rewrite Ho in Ho'.
    injection Hi' as <-. injection Ho' as <-.
    unfold command_of. rewrite E. reflexivity.
Qed.

(** X11. [convert_file] keeps to the log and the process table: it writes
    nothing to standard output, leaves the level of the logger as it
    found it and never ends the program. *)
Theorem convert_file_quiet (env : Env) (input_file output_file : string)
    (target_mime : option string) (unoconv_path : string)
    (th : Logging.level) :
  printed (trace (convert_file env input_file output_file target_mime
                               unoconv_path th)) = [] /\
  lvl (convert_file env input_file output_file target_mime unoconv_path th)
  = th /\
  forall status,
    res (convert_file env input_file output_file target_mime unoconv_path th)
    <> Exit status.
Proof.
  destruct (tame_convert_file env input_file output_file target_mime
              unoconv_path th) as (Hl & Hp & Hx).
  repeat split; try assumption. apply written_nil_printed. exact Hp.
Qed.

(** ** Further behaviour of [main] *)

Lemma printed_In (t : list Effect) (line : string) :
  In (Print line) t -> In line (printed t).
Proof.
  induction t as [|e t IH]; simpl; [tauto|].
  intros [H|H].
  - subst e. left. reflexivity.
  - destruct e; simpl; auto.
Qed.

Lemma append_same_head (s a b : string) : s ++ a = s ++ b -> a = b.
Proof.
  induction s as [|c s IH]; cbv [String.append]; fold String.append.
  - tauto.
  - intros H. injection H as H. apply IH. exact H.
Qed.


(** X14. The success line is earned: when the run prints "File
    successfully converted to" a name, the command line was accepted, the
    name is the output file as given, and the run started a command that
    left with status 0. *)
Theorem success_line_means_clean_exit (env : Env) (x : string) :
  In (Print ("File successfully converted to " ++ x)) (trace (run_script env)) ->
  exists args command process,
    parse_args env = Parsed args /\
    x = output_file args /\
    In (Popen command) (trace (run_script env)) /\
    popen env command = Py.Returns process /\
    returncode process = 0%Z.
Proof.
  intros Hin. destruct (parse_args env) as [args|status usage] eqn:Hparse.
  - destruct (main_out env args Hparse) as (ok & Hok & E).
    rewrite E in Hin |- *. cbn [trace] in *.
    apply in_app_or in Hin. destruct Hin as [Hin|Hin].
    { destruct (debug args); simpl in Hin; [|destruct Hin].
      destruct Hin as [H|[]]. discriminate H. }
    apply in_app_or in Hin. destruct Hin as [Hin|Hin].
    { apply printed_In in Hin.
      destruct (tame_convert_file env (input_file args) (output_file args)
                  (target_mime args) (unoconv_path args)
                  (if debug args then Logging.DEBUG else Logging.INFO))
        as (_ & Hp & _).
      rewrite (written_nil_printed _ Hp) in Hin. destruct Hin. }
    destruct (write_stdout env (status_line ok (output_file args)));
      [|destruct Hin].
    destruct Hin as [H|[]]. injection H as H. destruct ok; unfold status_line in H.
    + apply append_same_head in H.
      destruct (true_result _ _ _ _ _ _ Hok)
        as (ai & ao & p & _ & _ & _ & Hp & Hrc & S).
      exists args, (command_of (unoconv_path args) ao ai), p.
      repeat split; try assumption; [symmetry; exact H|].
      apply in_or_app. right. apply in_or_app. left.
      apply spawned_In. rewrite S. left. reflexivity.
    + cbv [String.append] in H. discriminate H.
  - exfalso. revert Hin.
    unfold run_script, main, bind, setup_argparse. rewrite Hparse.
    cbn [trace]. clear Hparse. induction usage as [|u usage IH]; simpl.
    + tauto.
    + intros [H|H]; [discriminate H|exact (IH H)].
Qed.

(** ** The statements at concrete worlds *)

Module Concrete.

Import Sample.

Lemma convert_file_argument_vector_witness :
  spawned (trace (convert_file converted "report.odt" "report.pdf" None
                               "unoconv" Logging.INFO))
  = [["unoconv"; "-f";
      Py.lstrip "." (Pathlib.suffix "/abs/report.pdf");
      "-o"; "/abs/report.pdf"; "/abs/report.odt"]] /\
  Py.lstrip "." (Pathlib.suffix "/abs/report.pdf")
  = Pathlib.without_period (Pathlib.suffix "/abs/report.pdf") /\
  (Pathlib.name "/abs/report.pdf" = Pathlib.name "report.pdf" ->
   Py.lstrip "." (Pathlib.suffix "/abs/report.pdf")
   = Pathlib.without_period (Pathlib.suffix "report.pdf")).
Proof.
  apply (convert_file_argument_vector converted "report.odt" "report.pdf"
           "unoconv" Logging.INFO None "/abs/report.odt" "/abs/report.pdf");
    reflexivity.
Defined.

(** C1 as stated fails.  The output path [link.pdf] has the extension
    [pdf], which the MIME table knows, and is a symbolic link to
    [/data/real.docx]: the format handed to the tool is [docx]. *)
Lemma symlink_changes_format :
  is_file symlinked "report.odt" = Py.Returns true /\
  Py.truthy (guess_type symlinked "link.pdf") = true /\
  Pathlib.without_period (Pathlib.suffix "link.pdf") = "pdf" /\
  spawned (trace (convert_file symlinked "report.odt" "link.pdf" None
                               "unoconv" Logging.INFO))
  = [["unoconv"; "-f"; "docx"; "-o"; "/data/real.docx"; "/abs/report.odt"]].
Proof. repeat split; reflexivity. Qed.


Lemma missing_input_fails_witness :
  res (convert_file converted "missing.docx" "out.pdf" None "unoconv"
                    Logging.INFO) = Val false /\
  spawned (trace (convert_file converted "missing.docx" "out.pdf" None
                               "unoconv" Logging.INFO)) = [] /\
  trace (convert_file converted "missing.docx" "out.pdf" None "unoconv"
                      Logging.INFO)
  = [Log Logging.ERROR ("Input file not found: " ++ "missing.docx") None].
Proof.
  apply (missing_input_fails converted "missing.docx" "out.pdf" "unoconv"
           Logging.INFO None).
  reflexivity.
Defined.

Lemma unresolved_format_fails_witness :
  res (convert_file converted "report.odt" "report.zzzz" None "unoconv"
                    Logging.INFO) = Val false /\
  spawned (trace (convert_file converted "report.odt" "report.zzzz" None
                               "unoconv" Logging.INFO)) = [].
Proof.
  apply (unresolved_format_fails converted "report.odt" "report.zzzz"
           "unoconv" Logging.INFO None); reflexivity.
Defined.

(** C5 as stated fails.  The output path [data:,x] has no extension, no
    target format is given, and the MIME lookup reads it as a [data:]
    URL of plain text: the tool is started, with an empty format. *)
Lemma data_url_is_converted :
  Pathlib.suffix data_url = "" /\
  guess_type reads_urls data_url = Some "text/plain" /\
  res (convert_file reads_urls "report.odt" data_url None "unoconv"
                    Logging.INFO) = Val true /\
  spawned (trace (convert_file reads_urls "report.odt" data_url None
                               "unoconv" Logging.INFO))
  = [["unoconv"; "-f"; ""; "-o"; "/abs/data:,x"; "/abs/report.odt"]].
Proof. repeat split; reflexivity. Qed.

Lemma explicit_format_skips_validation_witness :
  spawned (trace (convert_file converted "report.odt" "report"
                    (Some "application/pdf") "unoconv" Logging.INFO))
  = [["unoconv"; "-f"; ""; "-o"; "/abs/report"; "/abs/report.odt"]].
Proof.
  apply (explicit_format_skips_validation converted "report.odt" "report"
           "unoconv" Logging.INFO "application/pdf" "/abs/report.odt"
           "/abs/report");
    try reflexivity.
  discriminate.
Defined.

(** C10 as stated fails.  With an explicit target format and the input
    file on disk, an output name that cannot be resolved stops the call
    before anything is started; and the output path [latest], which has
    no extension and is a symbolic link to [/data/real.docx], gets the
    format [docx], not the empty string. *)
Lemma explicit_format_needs_resolution :
  (is_file rejects_null "report.odt" = Py.Returns true /\
   res (convert_file rejects_null "report.odt" null_name
          (Some "application/pdf") "unoconv" Logging.INFO) = Val false /\
   spawned (trace (convert_file rejects_null "report.odt" null_name
                     (Some "application/pdf") "unoconv" Logging.INFO)) = []) /\
  (Pathlib.suffix "latest" = "" /\
   spawned (trace (convert_file symlinked "report.odt" "latest"
                     (Some "application/pdf") "unoconv" Logging.INFO))
   = [["unoconv"; "-f"; "docx"; "-o"; "/data/real.docx";
       "/abs/report.odt"]]).
Proof. repeat split; reflexivity. Qed.

Lemma exit_status_decides_witness :
  res (convert_file (world 3 "out" "err" cli_ok) "report.odt" "report.pdf"
                    None "unoconv" Logging.INFO) = Val false /\
  In (Log Logging.ERROR ("Stdout: " ++ "out") None)
     (trace (convert_file (world 3 "out" "err" cli_ok) "report.odt"
               "report.pdf" None "unoconv" Logging.INFO)) /\
  In (Log Logging.ERROR ("Stderr: " ++ "err") None)
     (trace (convert_file (world 3 "out" "err" cli_ok) "report.odt"
               "report.pdf" None "unoconv" Logging.INFO)).
Proof.
  destruct (exit_status_decides (world 3 "out" "err" cli_ok) "report.odt"
              "report.pdf" "unoconv" Logging.INFO None report_command
              (mkProcess 3 "out" "err")) as [_ H].
  - simpl. tauto.
  - reflexivity.
  - destruct H as [Hres Hlog]; [discriminate|].
    destruct (Hlog eq_refl) as [Hout Herr].
    exact (conj Hres (conj Hout (Herr eq_refl))).
Defined.

(** C3: the code at the failing input.  The tool leaves with status 1,
    its standard output is one byte that is not UTF-8 and its standard
    error is a plain message.  Decoding the output raises on line 75,
    line 76 is never reached and the catch-all handler takes over: the
    call returns failure, but no log record holds the message of
    standard error (nor the bytes of standard output). *)
Lemma undecodable_output_hides_streams :
  In (Popen report_command)
     (trace (convert_file garbled "report.odt" "report.pdf" None "unoconv"
                          Logging.INFO)) /\
  popen garbled report_command
  = Py.Returns (mkProcess 1 undecodable complaint) /\
  res (convert_file garbled "report.odt" "report.pdf" None "unoconv"
                    Logging.INFO) = Val false /\
  logs_text complaint
    (trace (convert_file garbled "report.odt" "report.pdf" None "unoconv"
                         Logging.INFO)) = false /\
  logs_text undecodable
    (trace (convert_file garbled "report.odt" "report.pdf" None "unoconv"
                         Logging.INFO)) = false.
Proof.
  repeat split; try reflexivity. simpl. tauto.
Qed.

Lemma missing_tool_reported_witness :
  res (convert_file (no_tool cli_ok) "report.odt" "report.pdf" None
                    "unoconv" Logging.INFO) = Val false /\
  exists before,
    spawned before = [] /\
    trace (convert_file (no_tool cli_ok) "report.odt" "report.pdf" None
                        "unoconv" Logging.INFO)
    = (before ++
       [Popen report_command;
        Log Logging.ERROR
          ("Error: unoconv not found. Please ensure it is installed and in your PATH. "
           ++ "[Errno 2] No such file or directory: 'unoconv'") None])%list.
Proof.
  apply (missing_tool_reported (no_tool cli_ok) "report.odt" "report.pdf"
           "unoconv" Logging.INFO None report_command
           (Py.Exn Py.FileNotFoundError
              "[Errno 2] No such file or directory: 'unoconv'")).
  - simpl. tauto.
  - reflexivity.
  - reflexivity.
Defined.

(** C6 as stated fails.  The tool is on disk but may not be executed:
    the creation of the process raises [PermissionError], the call
    returns failure, and its diagnostic is the record of the catch-all
    handler; no record names the missing tool. *)
Lemma unexecutable_tool_not_named :
  In (Popen report_command)
     (trace (convert_file locked_tool "report.odt" "report.pdf" None
                          "unoconv" Logging.INFO)) /\
  popen locked_tool report_command = Py.Raises permission_denied /\
  res (convert_file locked_tool "report.odt" "report.pdf" None "unoconv"
                    Logging.INFO) = Val false /\
  In (Log Logging.ERROR
        ("An unexpected error occurred: " ++ Py.exn_str permission_denied)
        (Some permission_denied))
     (trace (convert_file locked_tool "report.odt" "report.pdf" None
                          "unoconv" Logging.INFO)) /\
  logs_text "unoconv not found"
    (trace (convert_file locked_tool "report.odt" "report.pdf" None
                         "unoconv" Logging.INFO)) = false.
Proof.
  repeat split; try reflexivity; vm_compute; tauto.
Qed.

Lemma convert_file_never_raises_witness :
  res (convert_file garbled "report.odt" "report.pdf" None "unoconv"
                    Logging.INFO) = Val false.
Proof.
  apply (proj2 (convert_file_never_raises garbled "report.odt" "report.pdf"
                  "unoconv" Logging.INFO None)
           (Py.Exn Py.UnicodeDecodeError (invalid_start_byte undecodable))).
  reflexivity.
Defined.

Lemma one_child_after_validation_witness :
  exists before after,
    trace (convert_file converted "report.odt" "report.pdf" None "unoconv"
                        Logging.INFO)
    = (before ++ [Popen report_command; Communicate report_command]
              ++ after)%list /\
    spawned before = [] /\ spawned after = [] /\
    no_error_record before.
Proof.
  apply (proj2 (proj2 (one_child_after_validation converted "report.odt"
                         "report.pdf" "unoconv" Logging.INFO None))
           report_command (mkProcess 0 "" "")).
  - simpl. tauto.
  - reflexivity.
Defined.

(** C9 as stated fails.  With the input file missing the call starts no
    child at all. *)
Lemma missing_input_starts_no_child :
  length (spawned (trace (convert_file converted "missing.docx" "out.pdf"
                            None "unoconv" Logging.INFO))) = 0%nat.
Proof. reflexivity. Qed.

Lemma main_reports_once_witness :
  exists ok,
    res (convert_file converted "report.odt" "report.pdf" None "unoconv"
                      Logging.INFO) = Val ok /\
    (write_stdout converted (status_line ok "report.pdf") = Py.Returns tt ->
     written (trace (run_script converted)) = [status_line ok "report.pdf"] /\
     exit_status (run_script converted) = 0%Z) /\
    (forall e,
       write_stdout converted (status_line ok "report.pdf") = Py.Raises e ->
       written (trace (run_script converted)) = [] /\
       exit_status (run_script converted) = 1%Z).
Proof.
  apply (main_reports_once converted
           (mkNamespace "report.odt" "report.pdf" None "unoconv" false)).
  reflexivity.
Defined.

(** C8 as stated fails.  For a command line the parser refuses, the run
    writes neither of the two lines and ends with status 2. *)
Lemma refused_command_line_prints_nothing :
  written (trace (run_script refused)) = [] /\
  exit_status (run_script refused) = 2%Z.
Proof. split; reflexivity. Qed.

(** The same for an accepted command line whose output name standard
    output cannot encode: the conversion succeeds, the success line
    cannot be written, and the run ends with status 1 without a line;
    and for the help flag, where the only text written is the parser's. *)
Lemma status_line_lost :
  (res (convert_file strict_stdout "report.odt" odd_name None "unoconv"
                     Logging.INFO) = Val true /\
   written (trace (run_script strict_stdout)) = [] /\
   exit_status (run_script strict_stdout) = 1%Z) /\
  (printed (trace (run_script asks_help)) = [] /\
   length (written (trace (run_script asks_help))) = 1%nat /\
   exit_status (run_script asks_help) = 0%Z).
Proof. repeat split; reflexivity. Qed.

End Concrete.

(** ** The further statements at concrete worlds *)

Module Checks.

Import Sample.

(** Finds an effect in a concrete trace. *)
Ltac in_trace := vm_compute; repeat (try (left; reflexivity); right).

Lemma success_means_clean_exit_witness :
  exists abs_input abs_output process,
    is_file converted "report.odt" = Py.Returns true /\
    resolve converted "report.odt" = Py.Returns abs_input /\
    resolve converted "report.pdf" = Py.Returns abs_output /\
    popen converted (command_of "unoconv" abs_output abs_input)
    = Py.Returns process /\
    returncode process = 0%Z /\
    spawned (trace (convert_file converted "report.odt" "report.pdf" None
                                 "unoconv" Logging.INFO))
    = [command_of "unoconv" abs_output abs_input] /\
    In (Communicate (command_of "unoconv" abs_output abs_input))
       (trace (convert_file converted "report.odt" "report.pdf" None
                            "unoconv" Logging.INFO)) /\
    no_error_record (trace (convert_file converted "report.odt" "report.pdf"
                              None "unoconv" Logging.INFO)).
Proof.
  apply (success_means_clean_exit converted "report.odt" "report.pdf"
           "unoconv" Logging.INFO None).
  reflexivity.
Defined.

Lemma failure_is_logged_witness :
  exists msg info,
    In (Log Logging.ERROR msg info)
       (trace (convert_file converted "missing.docx" "out.pdf" None
                            "unoconv" Logging.INFO)).
Proof.
  apply (failure_is_logged converted "missing.docx" "out.pdf" "unoconv"
           Logging.INFO None); reflexivity.
Defined.

Lemma command_logged_before_start_witness :
  adjacent
    (Log Logging.INFO
       ("Executing command: " ++ Py.join " " report_command) None)
    (Popen report_command)
    (trace (convert_file converted "report.odt" "report.pdf" None "unoconv"
                         Logging.INFO)).
Proof.
  apply (command_logged_before_start converted "report.odt" "report.pdf"
           "unoconv" Logging.INFO None report_command).
  - reflexivity.
  - in_trace.
Defined.

Lemma failing_status_logged_witness :
  adjacent
    (Communicate report_command)
    (Log Logging.ERROR
       ("Conversion failed with return code " ++ Py.str_of_int 3) None)
    (trace (convert_file (world 3 "out" "err" cli_ok) "report.odt"
              "report.pdf" None "unoconv" Logging.INFO)).
Proof.
  apply (failing_status_logged (world 3 "out" "err" cli_ok) "report.odt"
           "report.pdf" "unoconv" Logging.INFO None report_command
           (mkProcess 3 "out" "err")).
  - in_trace.
  - reflexivity.
  - discriminate.
Defined.

Lemma spawn_error_reported_witness :
  res (convert_file locked_tool "report.odt" "report.pdf" None "unoconv"
                    Logging.INFO) = Val false /\
  ~ In (Communicate report_command)
       (trace (convert_file locked_tool "report.odt" "report.pdf" None
                            "unoconv" Logging.INFO)) /\
  exists before,
    trace (convert_file locked_tool "report.odt" "report.pdf" None "unoconv"
                        Logging.INFO)
    = (before ++
       [Popen report_command;
        Log Logging.ERROR
          ("An unexpected error occurred: " ++ Py.exn_str permission_denied)
          (Some permission_denied)])%list.
Proof.
  apply (spawn_error_reported locked_tool "report.odt" "report.pdf" "unoconv"
           Logging.INFO None report_command permission_denied).
  - in_trace.
  - reflexivity.
  - discriminate.
Defined.

Lemma validation_error_starts_nothing_witness :
  res (convert_file unreadable "report.odt" "report.pdf" None "unoconv"
                    Logging.INFO) = Val false /\
  trace (convert_file unreadable "report.odt" "report.pdf" None "unoconv"
                      Logging.INFO) = [handler_record permission_denied].
Proof.
  apply (validation_error_starts_nothing unreadable "report.odt" "report.pdf"
           "unoconv" Logging.INFO None permission_denied).
  reflexivity.
Defined.

Lemma resolution_error_starts_nothing_witness :
  res (convert_file looping "report.odt" "report.pdf" None "unoconv"
                    Logging.INFO) = Val false /\
  spawned (trace (convert_file looping "report.odt" "report.pdf" None
                               "unoconv" Logging.INFO)) = [] /\
  exists before,
    trace (convert_file looping "report.odt" "report.pdf" None "unoconv"
                        Logging.INFO)
    = (before ++ [handler_record symlink_loop])%list.
Proof.
  apply (resolution_error_starts_nothing looping "report.odt" "report.pdf"
           "unoconv" Logging.INFO None symlink_loop).
  - reflexivity.
  - left. reflexivity.
  - right. reflexivity.
Defined.

Lemma inference_only_logs_witness :
  res (convert_file converted "report.odt" "report.pdf" None "unoconv"
                    Logging.INFO)
  = res (convert_file converted "report.odt" "report.pdf"
           (Some "text/plain") "unoconv" Logging.INFO) /\
  trace (convert_file converted "report.odt" "report.pdf" None "unoconv"
                      Logging.INFO)
  = (logged Logging.INFO Logging.INFO
       ("Inferred target MIME type: "
        ++ Py.format (guess_type converted "report.pdf"))
     ++ trace (convert_file converted "report.odt" "report.pdf"
                 (Some "text/plain") "unoconv" Logging.INFO))%list.
Proof.
  apply (inference_only_logs converted "report.odt" "report.pdf" "unoconv"
           Logging.INFO "text/plain").
  - reflexivity.
  - reflexivity.
  - discriminate.
Defined.

Lemma format_has_no_period_witness :
  exists tool format abs_output abs_input,
    report_command = [tool; "-f"; format; "-o"; abs_output; abs_input] /\
    Py.rfind "." format = (-1)%Z.
Proof.
  apply (format_has_no_period converted "report.odt" "report.pdf" "unoconv"
           Logging.INFO None report_command).
  in_trace.
Defined.

Lemma format_of_named_output_witness :
  spawned (trace (convert_file converted "report.odt" "report.pdf" None
                               "unoconv" Logging.INFO))
  = [["unoconv"; "-f"; "pdf"; "-o"; "/abs/report.pdf"; "/abs/report.odt"]].
Proof.
  apply (format_of_named_output converted "report.odt" "report.pdf" "unoconv"
           Logging.INFO None "/abs/report.odt" "/abs/report.pdf" "report"
           "pdf").
  - reflexivity.
  - right. reflexivity.
  - reflexivity.
  - reflexivity.
  - reflexivity.
  - discriminate.
  - discriminate.
  - reflexivity.
Defined.


Lemma exit_status_selects_result_witness :
  (res (convert_file (world 3 "out" "err" cli_ok) "report.odt" "report.pdf"
          None "unoconv" Logging.INFO) = Val true <-> 3%Z = 0%Z) /\
  (3%Z <> 0%Z ->
   res (convert_file (world 3 "out" "err" cli_ok) "report.odt" "report.pdf"
          None "unoconv" Logging.INFO) = Val false).
Proof.
  apply (exit_status_selects_result (world 3 "out" "err" cli_ok)
           "report.odt" "report.pdf" "unoconv" Logging.INFO None
           report_command (mkProcess 3 "out" "err")).
  - in_trace.
  - reflexivity.
Defined.

Lemma success_line_means_clean_exit_witness :
  exists args command process,
    parse_args converted = Parsed args /\
    "report.pdf" = output_file args /\
    In (Popen command) (trace (run_script converted)) /\
    popen converted command = Py.Returns process /\
    returncode process = 0%Z.
Proof.
  apply (success_line_means_clean_exit converted "report.pdf").
  in_trace.
Defined.

End Checks.
